(** * tryState: a verified reading of [src/index.ts]

    The repository exports one asynchronous function, [tryState], which runs
    a producer once and turns whatever happens into a three-element tuple
    [[data, error, metadata]].  This file embeds that function in Rocq and
    proves the properties its specification states about it.

    Modelling choices, all taken from the source:
    - a JavaScript string is the list of its UTF-16 code units ([list N]);
    - a JavaScript value is a small tagged union; an object is a finite map
      from property names to values (its data properties, prototype chain
      flattened);
    - an [async] function body is a computation over the outside world (here:
      the system clock) that ends fulfilled, rejected, or never resumes. *)

From Stdlib Require Import ZArith NArith String Ascii List Lia.
From stdpp Require Import gmap list fin_maps.

Local Open Scope Z_scope.

(** ** Strings *)

Module Str.

(** A string value: its UTF-16 code units. *)
Abbreviation JsString := (list N).

(** A literal of the source, written with the characters of Latin-1. *)
Fixpoint js (s : string) : JsString :=
  match s with
  | EmptyString => []
  | String a rest => N_of_ascii a :: js rest
  end.

(** The code units matched by [\s] in a regular expression and removed by
    [String.prototype.trim]: WhiteSpace and LineTerminator of ECMA-262. *)
Definition is_space (c : N) : bool :=
  ((9 <=? c) && (c <=? 13) || (c =? 32) || (c =? 160) || (c =? 5760)
   || (8192 <=? c) && (c <=? 8202) || (c =? 8232) || (c =? 8233)
   || (c =? 8239) || (c =? 8287) || (c =? 12288) || (c =? 65279))%N.

(** [s.split(sep)] for a separator of one code unit. *)
Fixpoint split (sep : N) (s : JsString) : list JsString :=
  match s with
  | [] => [[]]
  | c :: rest =>
      if (c =? sep)%N then [] :: split sep rest
      else match split sep rest with
           | line :: lines => (c :: line) :: lines
           | [] => [[c]]
           end
  end.

Fixpoint trimStart (s : JsString) : JsString :=
  match s with
  | c :: rest => if is_space c then trimStart rest else s
  | [] => []
  end.

Fixpoint trimEnd (s : JsString) : JsString :=
  match s with
  | [] => []
  | c :: rest =>
      match trimEnd rest with
      | [] => if is_space c then [] else [c]
      | kept => c :: kept
      end
  end.

(** [s.trim()]. *)
Definition trim (s : JsString) : JsString := trimEnd (trimStart s).

(** The longest prefix of non-space code units: what a greedy [\S*] takes. *)
Fixpoint non_space_run (s : JsString) : JsString :=
  match s with
  | c :: rest => if is_space c then [] else c :: non_space_run rest
  | [] => []
  end.

(** [Some rest] when [s] is [lit] followed by [rest]. *)
Fixpoint strip_literal (lit s : JsString) : option JsString :=
  match lit, s with
  | [], _ => Some s
  | a :: lit', c :: s' => if (a =? c)%N then strip_literal lit' s' else None
  | _ :: _, [] => None
  end.

(** The regular expression [/at (\S+)/] tried at the start of [s]: the whole
    match and capture group 1. *)
Definition match_at_here (s : JsString) : option (JsString * JsString) :=
  match strip_literal (js "at ") s with
  | Some rest =>
      match non_space_run rest with
      | [] => None
      | group1 => Some (js "at " ++ group1, group1)
      end
  | None => None
  end.

(** [s.match(/at (\S+)/)]: the leftmost position where the expression
    matches, [None] for JavaScript's [null]. *)
Fixpoint match_at (s : JsString) : option (JsString * JsString) :=
  match match_at_here s with
  | Some m => Some m
  | None =>
      match s with
      | [] => None
      | _ :: rest => match_at rest
      end
  end.

End Str.
Import Str.

(** ** Values *)

(** What a producer can throw or put in a context object.  Functions,
    symbols and bigints are left out, and so are accessor properties: an
    object is the finite map of its data properties, so that the only
    values with methods are the strings and the String objects
    ([new String(s)]), which have those of [String.prototype]. *)
#[warnings="-register-all"] Inductive JsValue : Type :=
| VUndefined
| VNull
| VBoolean (b : bool)
| VNumber (n : Z)
| VString (s : JsString)
| VStringObject (s : JsString)
| VObject (props : gmap JsString JsValue).

(** [Record<string, unknown>], and the shape of [ErrorProps]. *)
Abbreviation JsObject := (gmap JsString JsValue).

(** Truthiness, as [||] and [?:] test it. *)
Definition truthy (v : JsValue) : bool :=
  match v with
  | VUndefined | VNull => false
  | VBoolean b => b
  | VNumber n => negb (n =? 0)
  | VString [] => false
  | VString (_ :: _) => true
  | VStringObject _ => true
  | VObject _ => true
  end.

(** [a || b]. *)
Definition js_or (a b : JsValue) : JsValue := if truthy a then a else b.

(** [o || d] where [o] is a string or [undefined]. *)
Definition str_or (o : option JsString) (d : JsString) : JsString :=
  match o with
  | Some (c :: s) => c :: s
  | Some [] | None => d
  end.

(** The object literal [{ ...fields, ...source }]: the own properties of
    [source] are written after [fields], so they win; spreading [undefined]
    adds nothing. *)
Definition spread (source : option JsObject) (fields : JsObject) : JsObject :=
  match source with
  | Some extra => extra ∪ fields
  | None => fields
  end.

(** The error the engine raises for a property read on [null] or
    [undefined], or for a call of something that is not a function. *)
Definition TypeError : JsValue :=
  VObject {[ js "name" := VString (js "TypeError") ]}.

(** ** The outside world and asynchronous computations *)

(** The system clock as the sequence of its future readings, in milliseconds
    since the epoch; [reads] counts the readings taken so far. *)
Record World : Type := mkWorld { clock : nat -> Z; reads : nat }.

(** How a promise ends. [Pending] is a promise that never settles. *)
Inductive Settled (A : Type) : Type :=
| Fulfilled (a : A)
| Rejected (reason : JsValue)
| Pending.
Arguments Fulfilled {A} a.
Arguments Rejected {A} reason.
Arguments Pending {A}.

(** The body of an [async] function. *)
Definition Async (A : Type) : Type := World -> Settled A * World.

Definition ret {A} (a : A) : Async A := fun w => (Fulfilled a, w).

Definition bind {A B} (m : Async A) (k : A -> Async B) : Async B :=
  fun w =>
    match m w with
    | (Fulfilled a, w') => k a w'
    | (Rejected e, w') => (Rejected e, w')
    | (Pending, w') => (Pending, w')
    end.

Definition throw {A} (e : JsValue) : Async A := fun w => (Rejected e, w).

(** [try { body } catch (error) { handler }]. *)
Definition try_catch {A} (body : Async A) (handler : JsValue -> Async A) : Async A :=
  fun w =>
    match body w with
    | (Rejected error, w') => handler error w'
    | done => done
    end.

Declare Scope async_scope.
Delimit Scope async_scope with async.
Notation "x <- m ;; k" := (bind m (fun x => k))
  (at level 100, m at next level, right associativity) : async_scope.

(** The world after one reading of the clock. *)
Definition tick (w : World) : World := mkWorld (clock w) (S (reads w)).

(** [Date.now()]. *)
Definition Date_now : Async Z :=
  fun w => (Fulfilled (clock w (reads w)), tick w).

(** What calling a producer [fn: () => Promise<T>] does: it returns a promise
    or throws before returning one. *)
Inductive Completion (T : Type) : Type :=
| Returns (promise : Settled T)
| Throws (error : JsValue).
Arguments Returns {T} promise.
Arguments Throws {T} error.

Definition Producer (T : Type) : Type := World -> Completion T * World.

(** [await fn()]. *)
Definition await_call {T} (fn : Producer T) : Async T :=
  fun w =>
    match fn w with
    | (Returns promise, w') => (promise, w')
    | (Throws error, w') => (Rejected error, w')
    end.

(** [null] and [undefined] have no properties: reading one raises. *)
Definition nullish (v : JsValue) : bool :=
  match v with
  | VUndefined | VNull => true
  | _ => false
  end.

(** What [v.key] evaluates to when [v] is not nullish, for the names [stack]
    and [message], which no primitive wrapper defines. *)
Definition own (v : JsValue) (key : JsString) : JsValue :=
  match v with
  | VObject props => default VUndefined (props !! key)
  | _ => VUndefined
  end.

(** The property read [v.key]. *)
Definition get (v : JsValue) (key : JsString) : Async JsValue :=
  if nullish v then throw TypeError else ret (own v key).

(** The characters of a string or of a String object: what the methods of
    [String.prototype] work on. *)
Definition text_of (v : JsValue) : option JsString :=
  match v with
  | VString s | VStringObject s => Some s
  | _ => None
  end.

(** The method call [v.split('\n')]: a string and a String object have the
    method, a number, a boolean and an object of data properties do not. *)
Definition call_split (v : JsValue) : Async (list JsString) :=
  match text_of v with
  | Some s => ret (split 10 s)
  | None => throw TypeError
  end.

(** ** The timestamp *)

Module IsoDate.

Definition digit (d : Z) : N := Z.to_N (48 + d mod 10).

(** [n] in decimal on [width] digits, zero-padded. *)
Fixpoint pad (width : nat) (n : Z) : JsString :=
  match width with
  | O => []
  | S w => pad w (n / 10) ++ [digit n]
  end.

(** Year, month and day of the proleptic Gregorian calendar for a day
    number counted from 1970-01-01. *)
Definition civil_from_days (days : Z) : Z * Z * Z :=
  let z := days + 719468 in
  let era := z / 146097 in
  let doe := z - era * 146097 in
  let yoe := (doe - doe / 1460 + doe / 36524 - doe / 146096) / 365 in
  let doy := doe - (365 * yoe + yoe / 4 - yoe / 100) in
  let mp := (5 * doy + 2) / 153 in
  let d := doy - (153 * mp + 2) / 5 + 1 in
  let m := if mp <? 10 then mp + 3 else mp - 9 in
  let y := yoe + era * 400 + (if m <=? 2 then 1 else 0) in
  (y, m, d).

(** [new Date(t).toISOString()] for a time value [t] in milliseconds:
    [YYYY-MM-DDTHH:mm:ss.sssZ], with a signed six-digit year outside
    0..9999. *)
Definition toISOString (t : Z) : JsString :=
  let day_ms := 86400000 in
  let '(y, m, d) := civil_from_days (t / day_ms) in
  let ms := t mod day_ms in
  let year :=
    if (0 <=? y) && (y <=? 9999) then pad 4 y
    else (if y <? 0 then js "-" else js "+") ++ pad 6 (Z.abs y) in
  year ++ js "-" ++ pad 2 m ++ js "-" ++ pad 2 d ++ js "T"
    ++ pad 2 (ms / 3600000) ++ js ":" ++ pad 2 (ms / 60000 mod 60) ++ js ":"
    ++ pad 2 (ms / 1000 mod 60) ++ js "." ++ pad 3 (ms mod 1000) ++ js "Z".

End IsoDate.

(** [new Date().toISOString()]: one more reading of the clock, formatted. *)
Definition new_Date_toISOString : Async JsString :=
  fun w =>
    match Date_now w with
    | (Fulfilled t, w') => (Fulfilled (IsoDate.toISOString t), w')
    | (Rejected e, w') => (Rejected e, w')
    | (Pending, w') => (Pending, w')
    end.

(** ** tryState *)

(** The third element of the tuple. *)
Record Metadata : Type := mkMetadata { executionTimeMs : Z; timestamp : JsString }.

(** [[T, ErrorProps | null, { executionTimeMs; timestamp }?]]. *)
Definition Tuple (T : Type) : Type := T * option JsObject * option Metadata.

(** The sentinel of line 79, which contains two letters outside ASCII:
    c-cedilla (231) and a-tilde (227). *)
Definition location_not_found : JsString :=
  js "Localiza" ++ [231; 227]%N ++ js "o n" ++ [227]%N ++ js "o encontrada".

Section TryState.

Context {T : Type}.
Local Open Scope async_scope.

Definition tryState (fn : Producer T) (initialValue : T)
    (additionalContext : option JsObject) : Async (Tuple T) :=
  start <- Date_now ;;
  timestamp <- new_Date_toISOString ;;
  try_catch
    (result <- await_call fn ;;
     now <- Date_now ;;
     let executionTimeMs := now - start in
     ret (result, None, Some (mkMetadata executionTimeMs timestamp)))
    (fun error =>
     now <- Date_now ;;
     let executionTimeMs := now - start in
     error_stack <- get error (js "stack") ;;
     let stack := js_or error_stack (VString []) in
     stackLines <- call_split stack ;;
     let relevantLine := str_or (trim <$> stackLines !! 1%nat) location_not_found in
     let functionNameMatch := match_at relevantLine in
     let functionName :=
       match functionNameMatch with
       | Some m => snd m
       | None => js "unknown"
       end in
     error_message <- get error (js "message") ;;
     let errorDetails : JsObject :=
       spread additionalContext
         (<[js "location" := VString relevantLine]>
            (<[js "function" := VString functionName]>
               (<[js "stack" := stack]>
                  {[ js "message" := error_message ]}))) in
     ret (initialValue, Some errorDetails, Some (mkMetadata executionTimeMs timestamp))).

End TryState.

(** ** Vocabulary of the statements *)

Module StrSpec.

(** A string of white space only (the empty string included). *)
Definition blank (s : JsString) : Prop := Forall (fun c => is_space c = true) s.


(** [s] neither starts nor ends with white space. *)
Definition trimmed (s : JsString) : Prop :=
  (forall c, head s = Some c -> is_space c = false) /\
  (forall c, last s = Some c -> is_space c = false).

(** Position [k] of [s] holds the marker [at ] directly followed by a
    code unit that is not white space: where [/at (\S+)/] can match. *)
Definition marker_at (k : nat) (s : JsString) : Prop :=
  exists c rest, drop k s = js "at " ++ c :: rest /\ is_space c = false.

(** [lines] joined with [sep] between consecutive elements. *)
Fixpoint join (sep : N) (lines : list JsString) : JsString :=
  match lines with
  | [] => []
  | [line] => line
  | line :: more => line ++ sep :: join sep more
  end.

End StrSpec.
Import StrSpec.

(** The world in which [tryState] calls [fn]: the clock has been read twice,
    for [start] and for [timestamp]. *)
Definition at_call (w : World) : World := tick (tick w).

(** [additionalContext?.[key]], [None] when the context is absent or has no
    such key. *)
Definition context_get (additionalContext : option JsObject) (key : JsString)
  : option JsValue :=
  additionalContext ≫= fun context => context !! key.

(** The caught value carries the trace text [s]: it has properties, and
    [error.stack || ''] is a string with the characters [s] (none when there
    is no stack). *)
Definition trace (error : JsValue) (s : JsString) : Prop :=
  nullish error = false
  /\ text_of (js_or (own error (js "stack")) (VString [])) = Some s.

(** The value of [relevantLine] (line 79) for the trace text [s]. *)
Definition relevant_frame (s : JsString) : JsString :=
  str_or (trim <$> split 10 s !! 1%nat) location_not_found.

(** The value of [functionName] (lines 80 and 81) for the frame [line]. *)
Definition function_name (line : JsString) : JsString :=
  match match_at line with
  | Some m => snd m
  | None => js "unknown"
  end.

(** The four fields written before the context is spread (lines 84 to 87). *)
Definition fixed_fields (error : JsValue) (s : JsString) : JsObject :=
  <[js "location" := VString (relevant_frame s)]>
    (<[js "function" := VString (function_name (relevant_frame s))]>
       (<[js "stack" := js_or (own error (js "stack")) (VString [])]>
          {[ js "message" := own error (js "message") ]})).

(** The metadata of a call entered in world [w] whose producer settled in
    world [w1]. *)
Definition metadata_of (w w1 : World) : Metadata :=
  mkMetadata (clock w1 (reads w1) - clock w (reads w))
             (IsoDate.toISOString (clock w (S (reads w)))).

(** Called by [tryState] entered in world [w], the producer returns a promise
    that is fulfilled with [v], and leaves the world [w1]. *)
Definition resolves_with {T} (fn : Producer T) (w : World) (v : T) (w1 : World) : Prop :=
  await_call fn (at_call w) = (Fulfilled v, w1).

(** Called by [tryState] entered in world [w], the producer throws [error] or
    returns a promise rejected with [error], and leaves the world [w1]. *)
Definition fails_with {T} (fn : Producer T) (w : World) (error : JsValue) (w1 : World) : Prop :=
  await_call fn (at_call w) = (Rejected error, w1).

(** The names of the four fixed fields of [ErrorProps]. *)
Definition fixed_keys : list JsString :=
  [js "message"; js "stack"; js "function"; js "location"].

(** Called by [tryState] entered in world [w], the producer returns a promise
    that never settles, and leaves the world [w1]. *)
Definition never_settles {T} (fn : Producer T) (w w1 : World) : Prop :=
  await_call fn (at_call w) = (Pending, w1).

(** A thrown boolean, number or string. *)
Definition is_primitive (v : JsValue) : bool :=
  match v with
  | VBoolean _ | VNumber _ | VString _ => true
  | VUndefined | VNull | VStringObject _ | VObject _ => false
  end.

(** ** Running the model on examples *)

Module Examples.

(** A clock that starts at 2023-11-14T22:13:20.000Z and advances 5 ms per
    reading. *)
Definition w0 : World := mkWorld (fun i => 1700000000000 + 5 * Z.of_nat i) 0.

(** The stack of [new Error("Simulated Task Error")] as V8 writes it when
    the error is created in [performTask]. *)
Definition a_trace : JsString :=
  js "Error: Simulated Task Error" ++ [10]%N
  ++ js "    at performTask (/app/task.js:4:9)" ++ [10]%N
  ++ js "    at tryState (/app/index.js:68:30)".

Definition an_error : JsValue :=
  VObject (<[js "stack" := VString a_trace]>
             {[ js "message" := VString (js "Simulated Task Error") ]}).

(** A thrown object that has a message and no stack. *)
Definition a_bare_error : JsValue :=
  VObject {[ js "message" := VString (js "no stack here") ]}.

(** An error whose stack is the message line alone. *)
Definition a_one_line_trace : JsString := js "Error: at performTask".

Definition a_one_line_error : JsValue :=
  VObject {[ js "stack" := VString a_one_line_trace ]}.

(** Another error raised at the same place: another message, no deeper
    frame. *)
Definition another_trace : JsString :=
  js "TypeError: x is undefined" ++ [10]%N
  ++ js "    at performTask (/app/task.js:4:9)".

Definition another_error : JsValue :=
  VObject {[ js "stack" := VString another_trace ]}.

(** An error whose stack is a String object: [e.stack = new String(...)]. *)
Definition a_string_object_error : JsValue :=
  VObject {[ js "stack" := VStringObject a_trace ]}.

(** A clock that is set back while the call runs: each reading is 5 ms
    earlier than the one before. *)
Definition a_clock_set_back : World :=
  mkWorld (fun i => 1700000000000 - 5 * Z.of_nat i) 0.

(** The context of the README's third example. *)
Definition a_context : JsObject := {[ js "taskId" := VNumber 42 ]}.

Definition rejects {T} (e : JsValue) : Producer T := fun w => (Returns (Rejected e), w).
Definition throws {T} (e : JsValue) : Producer T := fun w => (Throws e, w).
Definition resolves {T} (v : T) : Producer T := fun w => (Returns (Fulfilled v), w).

End Examples.

Import Examples.

(** ** The claims that fail, as they are worded *)

(** C2 as the spec words it, for a caught value with a trace text: message
    and fallback come back for every context. *)
Definition failure_shape_for_every_context : Prop :=
  forall (T : Type) (fn : Producer T) (initialValue : T)
         (additionalContext : option JsObject)
         (w w1 : World) (error : JsValue) (s : JsString) (m : JsValue),
    fails_with fn w error w1 ->
    trace error s ->
    own error (js "message") = m ->
    exists err meta,
      tryState fn initialValue additionalContext w
      = (Fulfilled (initialValue, Some err, Some meta), tick w1)
      /\ err !! js "message" = Some m.

(** C4 as the spec words it, for a caught value that has properties and no
    context: the location is the string "location not found". *)
Definition no_trace_gives_english_sentinel : Prop :=
  forall (T : Type) (fn : Producer T) (initialValue : T) (w w1 : World)
         (error : JsValue),
    fails_with fn w error w1 ->
    nullish error = false ->
    truthy (own error (js "stack")) = false ->
    exists err meta,
      tryState fn initialValue None w
      = (Fulfilled (initialValue, Some err, Some meta), tick w1)
      /\ err !! js "location" = Some (VString (js "location not found"))
      /\ err !! js "function" = Some (VString (js "unknown")).

(** C5 as the spec words it, without context: the second line itself is the
    location, and the sentinel stands in only for a missing line. *)
Definition location_is_second_line_verbatim : Prop :=
  forall (T : Type) (fn : Producer T) (initialValue : T) (w w1 : World)
         (error : JsValue) (s : JsString),
    fails_with fn w error w1 ->
    trace error s ->
    s <> [] ->
    exists err meta,
      tryState fn initialValue None w
      = (Fulfilled (initialValue, Some err, Some meta), tick w1)
      /\ err !! js "location"
         = Some (VString (default location_not_found (split 10 s !! 1%nat))).

(** C3 as the spec words it: the elapsed time is not negative, whatever the
    clock does. *)
Definition success_shape_for_every_clock : Prop :=
  forall (T : Type) (fn : Producer T) (initialValue : T)
         (additionalContext : option JsObject) (w w1 : World) (v : T),
    resolves_with fn w v w1 ->
    exists meta,
      tryState fn initialValue additionalContext w
      = (Fulfilled (v, None, Some meta), tick w1)
      /\ 0 <= executionTimeMs meta.

(** C10 as it is worded: without a context key [stack], the stack of a
    returned error object is a string. *)
Definition stack_field_is_always_a_string : Prop :=
  forall (T : Type) (fn : Producer T) (initialValue v : T)
         (w w1 w2 : World) (error : JsValue) (err : JsObject)
         (meta : option Metadata),
    fails_with fn w error w1 ->
    tryState fn initialValue None w = (Fulfilled (v, Some err, meta), w2) ->
    exists s, err !! js "stack" = Some (VString s).

(** * Proofs *)

(** ** Facts about the string operations *)

Module StrFacts.

Lemma split_not_nil sep s : split sep s <> [].
Proof.
  destruct s as [|c s]; simpl; [discriminate|].
  destruct (c =? sep)%N; [discriminate|].
  destruct (split sep s); discriminate.
Qed.

Lemma join_split sep s : join sep (split sep s) = s.
Proof.
  induction s as [|c s IH]; simpl; [reflexivity|].
  destruct (N.eqb_spec c sep) as [->|Hne].
  - pose proof (split_not_nil sep s) as Hnn.
    simpl. destruct (split sep s) as [|l ls]; [congruence|].
    simpl in *. by rewrite IH.
  - pose proof (split_not_nil sep s) as Hnn.
    destruct (split sep s) as [|l ls]; [congruence|].
    destruct ls as [|l' ls]; simpl in *; by rewrite <- IH.
Qed.


(** A string without line feed is a single line. *)
Lemma split_single sep s : sep ∉ s -> split sep s = [s].
Proof.
  induction s as [|c s IH]; simpl; [reflexivity|].
  rewrite elem_of_cons. intros Hn.
  destruct (N.eqb_spec c sep) as [->|Hne]; [tauto|].
  rewrite IH; [reflexivity | tauto].
Qed.

Lemma trimStart_spec s :
  exists pre, s = pre ++ trimStart s /\ blank pre /\
              forall c, head (trimStart s) = Some c -> is_space c = false.
Proof.
  induction s as [|c s (pre & Heq & Hpre & Hhd)]; simpl.
  - exists []. repeat split; [constructor | discriminate].
  - destruct (is_space c) eqn:Hc.
    + exists (c :: pre). repeat split; [simpl; congruence | by constructor | exact Hhd].
    + exists []. repeat split; [constructor|]. simpl. congruence.
Qed.

Lemma trimEnd_spec s :
  exists post, s = trimEnd s ++ post /\ blank post /\
               forall c, last (trimEnd s) = Some c -> is_space c = false.
Proof.
  induction s as [|c s (post & Heq & Hpost & Hlast)]; simpl.
  - exists []. repeat split; [constructor | discriminate].
  - destruct (trimEnd s) as [|k kept] eqn:Hk.
    + destruct (is_space c) eqn:Hc.
      * exists (c :: post). simpl in Heq. subst s.
        repeat split; [by constructor | discriminate].
      * exists post. simpl in *. subst s. repeat split; [exact Hpost|].
        intros ? [= <-]. exact Hc.
    + exists post. rewrite Heq at 1. repeat split; [exact Hpost|].
      intros c'. rewrite last_cons. destruct (last (k :: kept)) eqn:Hl.
      * intros [= <-]. by apply Hlast.
      * by rewrite last_None in Hl.
Qed.

Lemma trimEnd_head s c :
  head (trimEnd s) = Some c -> head s = Some c.
Proof.
  destruct s as [|a s]; simpl; [done|].
  destruct (trimEnd s); [destruct (is_space a)|]; simpl; congruence.
Qed.

(** [trim] removes a blank prefix and a blank suffix and leaves a string
    that neither starts nor ends with white space. *)
Lemma trim_spec s :
  exists pre post, s = pre ++ trim s ++ post /\ blank pre /\ blank post /\ trimmed (trim s).
Proof.
  destruct (trimStart_spec s) as (pre & Hs & Hpre & Hhd).
  destruct (trimEnd_spec (trimStart s)) as (post & Ht & Hpost & Hlast).
  exists pre, post. unfold trim, trimmed.
  repeat split; [by rewrite <- Ht | exact Hpre | exact Hpost | | exact Hlast].
  intros c Hc. by apply Hhd, trimEnd_head.
Qed.

Lemma trimStart_blank s : blank s -> trimStart s = [].
Proof. induction 1 as [|c s Hc _ IH]; simpl; [done|]. by rewrite Hc. Qed.

(** The trimmed string is empty exactly for a blank string. *)
Lemma trim_nil_iff s : trim s = [] <-> blank s.
Proof.
  split.
  - intros Hnil. destruct (trim_spec s) as (pre & post & Hs & Hpre & Hpost & _).
    rewrite Hnil in Hs. rewrite Hs. by apply Forall_app.
  - intros Hb. unfold trim. by rewrite trimStart_blank.
Qed.



Lemma non_space_run_nil s :
  non_space_run s = [] <-> forall c, head s = Some c -> is_space c = true.
Proof.
  destruct s as [|c s]; simpl; [done|].
  destruct (is_space c) eqn:Hc; split; try done.
  - intros _ ? [= <-]. exact Hc.
  - intros H. specialize (H c eq_refl). congruence.
Qed.

Lemma strip_literal_Some lit s rest :
  strip_literal lit s = Some rest <-> s = lit ++ rest.
Proof.
  revert s. induction lit as [|a lit IH]; intros s; simpl.
  - split; congruence.
  - destruct s as [|c s]; [split; discriminate|].
    destruct (N.eqb_spec a c) as [->|Hne].
    + rewrite IH. split; congruence.
    + split; [discriminate | congruence].
Qed.

(** *** The regular expression *)

Lemma marker_at_S k c s : marker_at (S k) (c :: s) <-> marker_at k s.
Proof. reflexivity. Qed.

Lemma match_at_here_Some s whole group1 :
  match_at_here s = Some (whole, group1) <->
  marker_at 0 s /\ group1 = non_space_run (drop 3 s) /\ whole = js "at " ++ group1.
Proof.
  unfold match_at_here, marker_at. rewrite drop_0.
  destruct (strip_literal (js "at ") s) as [rest|] eqn:Hlit.
  - apply strip_literal_Some in Hlit. subst s.
    change (drop 3 (js "at " ++ rest)) with rest.
    destruct rest as [|c rest]; simpl.
    + split; [discriminate|]. intros ((? & ? & Heq & _) & _). discriminate.
    + destruct (is_space c) eqn:Hc; simpl.
      * split; [discriminate|]. intros ((? & ? & [= <- <-] & ?) & _). congruence.
      * split.
        -- intros [= <- <-]. split; [|done]. by exists c, rest.
        -- intros (_ & -> & ->). done.
  - split; [discriminate|]. intros ((c & rest & Heq & _) & _).
    apply strip_literal_Some in Heq. congruence.
Qed.

Lemma match_at_here_None s : match_at_here s = None <-> ~ marker_at 0 s.
Proof.
  split.
  - intros Hnone Hm. destruct (match_at_here s) as [[whole g]|] eqn:Hs; [done|].
    unfold match_at_here, marker_at in *. rewrite drop_0 in Hm.
    destruct Hm as (c & rest & -> & Hc). simpl in Hs. by rewrite Hc in Hs.
  - intros Hm. destruct (match_at_here s) as [[whole g]|] eqn:Hs; [|done].
    apply match_at_here_Some in Hs. tauto.
Qed.

(** [match] finds the leftmost position where the expression matches and
    captures the longest run without white space after the marker. *)
Lemma match_at_Some s whole group1 :
  match_at s = Some (whole, group1) <->
  exists k, marker_at k s /\ (forall j, (j < k)%nat -> ~ marker_at j s) /\
            group1 = non_space_run (drop (k + 3) s) /\ whole = js "at " ++ group1.
Proof.
  induction s as [|c s IH].
  - simpl. split; [discriminate|].
    intros (k & (? & ? & Heq & _) & _). rewrite drop_nil in Heq. discriminate.
  - cbn [match_at]. destruct (match_at_here (c :: s)) as [[w g]|] eqn:Hhere.
    + apply match_at_here_Some in Hhere as (Hm & -> & ->). split.
      * intros [= <- <-]. exists 0%nat. repeat split; [exact Hm | lia].
      * intros (k & Hk & Hleft & -> & ->). destruct k as [|k]; [done|].
        exfalso. apply (Hleft 0%nat); [lia | exact Hm].
    + apply match_at_here_None in Hhere. rewrite IH. split.
      * intros (k & Hk & Hleft & Hg & Hw). exists (S k). repeat split; try done.
        intros [|j] Hj; [exact Hhere|]. rewrite marker_at_S. apply Hleft. lia.
      * intros (k & Hk & Hleft & Hg & Hw). destruct k as [|k]; [done|].
        exists k. repeat split; try done.
        intros j Hj. rewrite <- (marker_at_S j c). apply Hleft. lia.
Qed.

Lemma match_at_None s : match_at s = None <-> forall k, ~ marker_at k s.
Proof.
  induction s as [|c s IH].
  - simpl. split; [|done]. intros _ k (? & ? & Heq & _).
    rewrite drop_nil in Heq. discriminate.
  - cbn [match_at]. destruct (match_at_here (c :: s)) as [[w g]|] eqn:Hhere.
    + apply match_at_here_Some in Hhere as (Hm & _). split; [discriminate|].
      intros H. by destruct (H 0%nat).
    + apply match_at_here_None in Hhere. rewrite IH. split.
      * intros H [|k]; [exact Hhere | rewrite marker_at_S; apply H].
      * intros H k. rewrite <- (marker_at_S k c). apply H.
Qed.


End StrFacts.
Import StrFacts.

Section Equations.

Context {T : Type}.
Implicit Types (fn : Producer T) (initialValue : T)
  (additionalContext : option JsObject) (w : World).

Local Ltac run_tryState w H :=
  unfold tryState, bind, try_catch, new_Date_toISOString, Date_now;
  cbn beta iota; change (tick (tick w)) with (at_call w);
  rewrite H; cbn beta iota.

Lemma tryState_fulfilled fn initialValue additionalContext w v w1 :
  await_call fn (at_call w) = (Fulfilled v, w1) ->
  tryState fn initialValue additionalContext w
  = (Fulfilled (v, None, Some (metadata_of w w1)), tick w1).
Proof. intros H. run_tryState w H. reflexivity. Qed.

Lemma tryState_pending fn initialValue additionalContext w w1 :
  await_call fn (at_call w) = (Pending, w1) ->
  tryState fn initialValue additionalContext w = (Pending, w1).
Proof. intros H. run_tryState w H. reflexivity. Qed.

Lemma tryState_caught fn initialValue additionalContext w error w1 s :
  await_call fn (at_call w) = (Rejected error, w1) ->
  trace error s ->
  tryState fn initialValue additionalContext w
  = (Fulfilled (initialValue,
                Some (spread additionalContext (fixed_fields error s)),
                Some (metadata_of w w1)), tick w1).
Proof.
  intros H [Hnull Hstack]. run_tryState w H.
  unfold get. rewrite Hnull. unfold ret, call_split. cbn beta iota.
  rewrite Hstack. reflexivity.
Qed.

Lemma tryState_uncaught fn initialValue additionalContext w error w1 :
  await_call fn (at_call w) = (Rejected error, w1) ->
  (forall s, ~ trace error s) ->
  tryState fn initialValue additionalContext w = (Rejected TypeError, tick w1).
Proof.
  intros H Hno. run_tryState w H. unfold get, trace in *.
  destruct (nullish error) eqn:Hnull; [reflexivity|].
  unfold ret, call_split. cbn beta iota.
  destruct (text_of (js_or (own error (js "stack")) (VString []))) as [s|] eqn:Hstack;
    [|reflexivity].
  destruct (Hno s). by split.
Qed.

(** An error object in the tuple means that the producer failed with a
    value that carries a trace text. *)
Lemma tryState_error_inv fn initialValue additionalContext w v err meta w2 :
  tryState fn initialValue additionalContext w = (Fulfilled (v, Some err, meta), w2) ->
  exists error w1 s,
    await_call fn (at_call w) = (Rejected error, w1) /\ trace error s.
Proof.
  intros Hrun.
  destruct (await_call fn (at_call w)) as [[r|error|] w1] eqn:Hawait.
  - rewrite (tryState_fulfilled _ _ _ _ _ _ Hawait) in Hrun. discriminate.
  - exists error, w1.
    destruct (nullish error) eqn:Hnull.
    + rewrite (tryState_uncaught _ _ _ _ _ _ Hawait) in Hrun; [discriminate|].
      intros s [? _]. congruence.
    + destruct (text_of (js_or (own error (js "stack")) (VString [])))
        as [s|] eqn:Hstack.
      * exists s. by split.
      * rewrite (tryState_uncaught _ _ _ _ _ _ Hawait) in Hrun; [discriminate|].
        intros s [_ ?]. congruence.
  - rewrite (tryState_pending _ _ _ _ _ Hawait) in Hrun. discriminate.
Qed.

End Equations.

Lemma fails_with_iff {T} (fn : Producer T) w error w1 :
  fails_with fn w error w1 <->
  fn (at_call w) = (Returns (Rejected error), w1) \/ fn (at_call w) = (Throws error, w1).
Proof.
  unfold fails_with, await_call.
  destruct (fn (at_call w)) as [[[v|e|]|e] w'] eqn:Hfn; split;
    try (intros [= <- <-]; auto); try (intros [[=]|[=]]; subst; auto);
    try discriminate.
Qed.

Lemma spread_lookup_context additionalContext fields key x :
  context_get additionalContext key = Some x ->
  spread additionalContext fields !! key = Some x.
Proof.
  destruct additionalContext as [context|]; simpl; [|discriminate].
  apply lookup_union_Some_l.
Qed.

Lemma spread_lookup_fields additionalContext fields key :
  context_get additionalContext key = None ->
  spread additionalContext fields !! key = fields !! key.
Proof.
  destruct additionalContext as [context|]; simpl; [|reflexivity].
  apply lookup_union_r.
Qed.

Local Ltac key_ne := cbv; discriminate.

Lemma fixed_fields_message error s :
  fixed_fields error s !! js "message" = Some (own error (js "message")).
Proof.
  unfold fixed_fields.
  rewrite !lookup_insert_ne by key_ne. apply lookup_singleton_eq.
Qed.

Lemma fixed_fields_stack error s :
  fixed_fields error s !! js "stack"
  = Some (js_or (own error (js "stack")) (VString [])).
Proof.
  unfold fixed_fields.
  rewrite !lookup_insert_ne by key_ne. apply lookup_insert_eq.
Qed.

Lemma fixed_fields_function error s :
  fixed_fields error s !! js "function"
  = Some (VString (function_name (relevant_frame s))).
Proof.
  unfold fixed_fields.
  rewrite lookup_insert_ne by key_ne. apply lookup_insert_eq.
Qed.

Lemma fixed_fields_location error s :
  fixed_fields error s !! js "location" = Some (VString (relevant_frame s)).
Proof. unfold fixed_fields. apply lookup_insert_eq. Qed.

Lemma fixed_fields_keys error s key :
  key ∈ fixed_keys -> is_Some (fixed_fields error s !! key).
Proof.
  unfold fixed_keys. rewrite !elem_of_cons, elem_of_nil.
  intros [->|[->|[->|[->|[]]]]];
    [rewrite fixed_fields_message | rewrite fixed_fields_stack
     | rewrite fixed_fields_function | rewrite fixed_fields_location]; eauto.
Qed.

(** A caught value without stack has the empty trace text. *)
Lemma trace_falsy_stack error :
  nullish error = false -> truthy (own error (js "stack")) = false -> trace error [].
Proof. intros Hnull Hfalsy. split; [exact Hnull|]. unfold js_or. by rewrite Hfalsy. Qed.

(** The frame of a trace text: the three cases of line 79. *)
Lemma relevant_frame_cases s :
  (exists line, split 10 s !! 1%nat = Some line /\ ~ blank line /\
                relevant_frame s = trim line)
  \/ ((split 10 s !! 1%nat = None \/
       exists line, split 10 s !! 1%nat = Some line /\ blank line)
      /\ relevant_frame s = location_not_found).
Proof.
  unfold relevant_frame.
  destruct (split 10 s !! 1%nat) as [line|] eqn:Hline; simpl.
  - destruct (trim line) as [|c t] eqn:Htrim.
    + right. split; [|reflexivity]. right. exists line. split; [done|].
      by apply trim_nil_iff.
    + left. exists line. repeat split; [|done].
      rewrite <- trim_nil_iff. congruence.
  - right. split; [by left | reflexivity].
Qed.

(** The second line is missing exactly when the text has no line feed. *)
Lemma second_line_None s : split 10 s !! 1%nat = None <-> 10%N ∉ s.
Proof.
  split.
  - induction s as [|c s IH]; simpl; [intros _; apply not_elem_of_nil|].
    pose proof (split_not_nil 10 s) as Hnn.
    destruct (N.eqb_spec c 10) as [->|Hne].
    + destruct (split 10 s); [congruence | discriminate].
    + destruct (split 10 s) as [|l ls]; [congruence|]. simpl in *.
      intros Hls. rewrite elem_of_cons. intros [?|?]; [congruence | by apply IH].
  - intros Hno. by rewrite split_single.
Qed.

(** ** The model on concrete inputs *)

Example toISOString_epoch :
  IsoDate.toISOString 0 = js "1970-01-01T00:00:00.000Z".
Proof. vm_compute. reflexivity. Qed.

Example toISOString_leap_day :
  IsoDate.toISOString 951868799999 = js "2000-02-29T23:59:59.999Z".
Proof. vm_compute. reflexivity. Qed.

Example toISOString_before_epoch :
  IsoDate.toISOString (-1) = js "1969-12-31T23:59:59.999Z".
Proof. vm_compute. reflexivity. Qed.

Example split_keeps_empty_lines :
  split 10 (js "a" ++ [10; 10]%N ++ js "b") = [js "a"; []; js "b"].
Proof. reflexivity. Qed.

Example trim_keeps_inner_space :
  trim ([32; 9]%N ++ js "at foo  bar" ++ [13; 160]%N) = js "at foo  bar".
Proof. reflexivity. Qed.

(** The expression skips a marker that is followed by white space. *)
Example match_at_skips_marker_before_space :
  match_at (js "at  foo at bar") = Some (js "at bar", js "bar").
Proof. reflexivity. Qed.

(** The marker may be the end of a longer word. *)
Example match_at_inside_a_word :
  match_at (js "cat at foo") = Some (js "at at", js "at").
Proof. reflexivity. Qed.

(** The README's third example: the error of [performTask] with the context
    [{ taskId: 42 }]. *)
Example tryState_on_an_error :
  exists err,
    fst (tryState (throws an_error) 7 (Some a_context) w0)
    = Fulfilled (7, Some err,
                 Some (mkMetadata 10 (js "2023-11-14T22:13:20.005Z")))
    /\ err !! js "message" = Some (VString (js "Simulated Task Error"))
    /\ err !! js "stack" = Some (VString a_trace)
    /\ err !! js "function" = Some (VString (js "performTask"))
    /\ err !! js "location" = Some (VString (js "at performTask (/app/task.js:4:9)"))
    /\ err !! js "taskId" = Some (VNumber 42).
Proof. eexists. split; [reflexivity|]. vm_compute. by repeat split. Qed.

(** A thrown string has neither message nor stack. *)
Example tryState_on_a_thrown_string :
  exists err,
    fst (tryState (throws (VString (js "boom"))) 7 None w0)
    = Fulfilled (7, Some err,
                 Some (mkMetadata 10 (js "2023-11-14T22:13:20.005Z")))
    /\ err !! js "message" = Some VUndefined
    /\ err !! js "stack" = Some (VString [])
    /\ err !! js "function" = Some (VString (js "unknown"))
    /\ err !! js "location" = Some (VString location_not_found).
Proof. eexists. split; [reflexivity|]. vm_compute. by repeat split. Qed.

(** A stack that is a String object is split like a string and stored as
    the object it is. *)
Example tryState_on_a_string_object_stack :
  exists err,
    fst (tryState (rejects a_string_object_error) 7 None w0)
    = Fulfilled (7, Some err,
                 Some (mkMetadata 10 (js "2023-11-14T22:13:20.005Z")))
    /\ err !! js "stack" = Some (VStringObject a_trace)
    /\ err !! js "function" = Some (VString (js "performTask"))
    /\ err !! js "location" = Some (VString (js "at performTask (/app/task.js:4:9)")).
Proof. eexists. split; [reflexivity|]. vm_compute. by repeat split. Qed.

(** A number has no [split] method: with a numeric stack line 78 raises
    inside the [catch] block. *)
Example tryState_on_a_numeric_stack :
  fst (tryState (rejects (VObject {[ js "stack" := VNumber 42 ]})) 7 None w0)
  = Rejected TypeError.
Proof. reflexivity. Qed.

(** ** The claims *)

(** *** C1: tryState never rejects *)

(** C1. The claim is that [tryState] resolves whatever the producer throws,
    values that are not Error objects included.  The code does not: when the
    producer throws (or rejects with) [null] or [undefined], line 77 reads
    the property [stack] of the caught value inside the [catch] block, the
    engine raises a TypeError there, and the promise of [tryState] is
    rejected with it, for every fallback, context and clock. *)
Theorem tryState_rejects_when_null_is_thrown :
  forall (T : Type) (initialValue : T) (additionalContext : option JsObject)
         (w : World),
    fst (tryState (throws VNull) initialValue additionalContext w) = Rejected TypeError
    /\ fst (tryState (rejects VUndefined) initialValue additionalContext w)
       = Rejected TypeError.
Proof. intros. split; reflexivity. Qed.

(** *** C2: the shape of a failure *)

(** C2, counterexample.  With the context [{ message: "from the context" }]
    the message of the thrown error does not come back: the context is
    spread after the fixed fields and replaces it. *)
Lemma failure_shape_for_every_context_fails : ~ failure_shape_for_every_context.
Proof.
  intros claim.
  destruct (claim Z (rejects an_error) 0
                  (Some {[ js "message" := VString (js "from the context") ]})
                  w0 (at_call w0) an_error a_trace
                  (VString (js "Simulated Task Error")))
    as (err & meta & Hrun & Hmessage); try reflexivity.
  - split; reflexivity.
  - injection Hrun as <- _. vm_compute in Hmessage. discriminate.
Qed.

(** C2, amended.  When the producer fails with a value that carries a trace
    text and whose message is [m], and the context (if any) has no key
    [message], [tryState] resolves to [[fallback, err, metadata]] with
    [err.message] equal to [m] and the fallback itself in first place. *)
Theorem failure_shape :
  forall (T : Type) (fn : Producer T) (initialValue : T)
         (additionalContext : option JsObject)
         (w w1 : World) (error : JsValue) (s : JsString) (m : JsValue),
    fails_with fn w error w1 ->
    trace error s ->
    own error (js "message") = m ->
    context_get additionalContext (js "message") = None ->
    exists err meta,
      tryState fn initialValue additionalContext w
      = (Fulfilled (initialValue, Some err, Some meta), tick w1)
      /\ err !! js "message" = Some m.
Proof.
  intros T fn initialValue additionalContext w w1 error s m Hfail Htrace <- Hfree.
  eexists _, _. split; [by apply tryState_caught|].
  rewrite spread_lookup_fields by exact Hfree. apply fixed_fields_message.
Qed.

Lemma failure_shape_witness :
  fails_with (T:=Z) (throws an_error) w0 an_error (at_call w0)
  /\ trace an_error a_trace
  /\ context_get (Some a_context) (js "message") = None
  /\ exists err meta,
       tryState (throws an_error) 7 (Some a_context) w0
       = (Fulfilled (7, Some err, Some meta), tick (at_call w0))
       /\ err !! js "message" = Some (VString (js "Simulated Task Error")).
Proof.
  assert (Hfail : fails_with (T:=Z) (throws an_error) w0 an_error (at_call w0))
    by reflexivity.
  assert (Htrace : trace an_error a_trace) by (split; reflexivity).
  assert (Hfree : context_get (Some a_context) (js "message") = None) by reflexivity.
  do 3 (split; [assumption|]).
  exact (failure_shape Z (throws an_error) 7 (Some a_context) w0 (at_call w0)
           an_error a_trace _ Hfail Htrace eq_refl Hfree).
Defined.

(** *** C3: the shape of a success *)

(** C3, counterexample.  [executionTimeMs] is the difference of two
    readings of [Date.now()], the wall clock: when the clock is set back
    while the producer runs, the difference is negative (here -10). *)
Lemma success_shape_for_every_clock_fails : ~ success_shape_for_every_clock.
Proof.
  intros claim.
  destruct (claim Z (resolves 3) 7 None a_clock_set_back (at_call a_clock_set_back) 3)
    as (meta & Hrun & Hpositive); [reflexivity|].
  injection Hrun as <-. vm_compute in Hpositive. by apply Hpositive.
Qed.

(** C3, amended.  When the producer resolves to [v], [tryState] resolves to
    [[v, null, metadata]]: the error slot is [null], the metadata is present,
    and [executionTimeMs] is the clock reading taken after the producer
    settled minus the reading taken on entry; it is not negative exactly
    when the later reading is not earlier than the first. *)
Theorem success_shape_and_elapsed_time :
  forall (T : Type) (fn : Producer T) (initialValue : T)
         (additionalContext : option JsObject) (w w1 : World) (v : T),
    resolves_with fn w v w1 ->
    exists meta,
      tryState fn initialValue additionalContext w
      = (Fulfilled (v, None, Some meta), tick w1)
      /\ executionTimeMs meta = clock w1 (reads w1) - clock w (reads w)
      /\ (0 <= executionTimeMs meta <-> clock w (reads w) <= clock w1 (reads w1)).
Proof.
  intros T fn initialValue additionalContext w w1 v Hres.
  exists (metadata_of w w1). split; [by apply tryState_fulfilled|].
  simpl. split; [reflexivity | lia].
Qed.

Lemma success_shape_and_elapsed_time_witness :
  resolves_with (resolves 3) w0 3 (at_call w0)
  /\ exists meta,
       tryState (resolves 3) 7 None w0
       = (Fulfilled (3, None, Some meta), tick (at_call w0))
       /\ executionTimeMs meta = 10.
Proof.
  assert (Hres : resolves_with (resolves 3) w0 3 (at_call w0)) by reflexivity.
  split; [assumption|].
  destruct (success_shape_and_elapsed_time Z (resolves 3) 7 None w0 (at_call w0) 3 Hres)
    as (meta & Hrun & Helapsed & _).
  exists meta. split; [exact Hrun|]. rewrite Helapsed. reflexivity.
Defined.

(** *** C4: a failure without trace text *)

(** C4, counterexample.  For a thrown object without stack the location is
    the sentinel of line 79, a Portuguese sentence, and not the string
    "location not found". *)
Lemma no_trace_gives_english_sentinel_fails : ~ no_trace_gives_english_sentinel.
Proof.
  intros claim.
  destruct (claim Z (rejects a_bare_error) 0 w0 (at_call w0) a_bare_error)
    as (err & meta & Hrun & Hlocation & _); try reflexivity.
  injection Hrun as <- _. vm_compute in Hlocation. discriminate.
Qed.

(** C4, amended.  When the producer fails with a value that is neither
    [null] nor [undefined] and has no trace text (its [stack] is absent,
    empty or otherwise falsy), and the context (if any) has no key
    [location] or [function], [tryState] resolves to its failure tuple, in
    which [err.location] is the sentinel of the source, the Portuguese
    sentence of line 79, and [err.function] is ["unknown"]. *)
Theorem no_trace_degradation :
  forall (T : Type) (fn : Producer T) (initialValue : T)
         (additionalContext : option JsObject) (w w1 : World) (error : JsValue),
    fails_with fn w error w1 ->
    nullish error = false ->
    truthy (own error (js "stack")) = false ->
    context_get additionalContext (js "location") = None ->
    context_get additionalContext (js "function") = None ->
    exists err meta,
      tryState fn initialValue additionalContext w
      = (Fulfilled (initialValue, Some err, Some meta), tick w1)
      /\ err !! js "location" = Some (VString location_not_found)
      /\ err !! js "function" = Some (VString (js "unknown")).
Proof.
  intros T fn initialValue additionalContext w w1 error Hfail Hnull Hfalsy Hloc Hfun.
  pose proof (trace_falsy_stack error Hnull Hfalsy) as Htrace.
  eexists _, _. split; [by apply tryState_caught|].
  rewrite !spread_lookup_fields by assumption.
  rewrite fixed_fields_location, fixed_fields_function. split; reflexivity.
Qed.

Lemma no_trace_degradation_witness :
  fails_with (T:=Z) (rejects a_bare_error) w0 a_bare_error (at_call w0)
  /\ nullish a_bare_error = false
  /\ truthy (own a_bare_error (js "stack")) = false
  /\ context_get (Some a_context) (js "location") = None
  /\ context_get (Some a_context) (js "function") = None
  /\ exists err meta,
       tryState (rejects a_bare_error) 7 (Some a_context) w0
       = (Fulfilled (7, Some err, Some meta), tick (at_call w0))
       /\ err !! js "location" = Some (VString location_not_found)
       /\ err !! js "function" = Some (VString (js "unknown")).
Proof.
  assert (Hfail : fails_with (T:=Z) (rejects a_bare_error) w0 a_bare_error (at_call w0))
    by reflexivity.
  assert (Hnull : nullish a_bare_error = false) by reflexivity.
  assert (Hfalsy : truthy (own a_bare_error (js "stack")) = false) by reflexivity.
  assert (Hloc : context_get (Some a_context) (js "location") = None) by reflexivity.
  assert (Hfun : context_get (Some a_context) (js "function") = None) by reflexivity.
  do 5 (split; [assumption|]).
  exact (no_trace_degradation Z (rejects a_bare_error) 7 (Some a_context) w0
           (at_call w0) a_bare_error Hfail Hnull Hfalsy Hloc Hfun).
Defined.

(** *** C5: the frame and the function name *)

(** C5, counterexample.  V8 indents the frames of a stack by four spaces;
    the location loses them, so it is not the second line as it stands. *)
Lemma location_is_second_line_verbatim_fails : ~ location_is_second_line_verbatim.
Proof.
  intros claim.
  destruct (claim Z (rejects an_error) 0 w0 (at_call w0) an_error a_trace)
    as (err & meta & Hrun & Hlocation); try reflexivity.
  - split; reflexivity.
  - discriminate.
  - injection Hrun as <- _. vm_compute in Hlocation. discriminate.
Qed.

(** C5, amended.  When the producer fails with a value that carries the
    trace text [s], and the context has no key [location] or [function]:
    [s] is split at line feeds; [err.location] is the second line with the
    white space at both ends removed, or the sentinel when there is no
    second line or it is blank; [err.function] is the longest run without
    white space after the leftmost [at ] of that frame that is directly
    followed by something other than white space, or ["unknown"] when the
    frame has no such place. *)
Theorem frame_and_function :
  forall (T : Type) (fn : Producer T) (initialValue : T)
         (additionalContext : option JsObject)
         (w w1 : World) (error : JsValue) (s : JsString),
    fails_with fn w error w1 ->
    trace error s ->
    context_get additionalContext (js "location") = None ->
    context_get additionalContext (js "function") = None ->
    exists err meta frame name,
      tryState fn initialValue additionalContext w
      = (Fulfilled (initialValue, Some err, Some meta), tick w1)
      /\ join 10 (split 10 s) = s
      /\ err !! js "location" = Some (VString frame)
      /\ ((exists line, split 10 s !! 1%nat = Some line /\ ~ blank line
                        /\ frame = trim line)
          \/ ((split 10 s !! 1%nat = None
               \/ exists line, split 10 s !! 1%nat = Some line /\ blank line)
              /\ frame = location_not_found))
      /\ err !! js "function" = Some (VString name)
      /\ ((exists k, marker_at k frame
                     /\ (forall j, (j < k)%nat -> ~ marker_at j frame)
                     /\ name = non_space_run (drop (k + 3) frame))
          \/ ((forall k, ~ marker_at k frame) /\ name = js "unknown")).
Proof.
  intros T fn initialValue additionalContext w w1 error s Hfail Htrace Hloc Hfun.
  exists (spread additionalContext (fixed_fields error s)), (metadata_of w w1),
    (relevant_frame s), (function_name (relevant_frame s)).
  split; [by apply tryState_caught|].
  split; [apply join_split|].
  rewrite !spread_lookup_fields by assumption.
  split; [apply fixed_fields_location|].
  split; [apply relevant_frame_cases|].
  split; [apply fixed_fields_function|].
  unfold function_name.
  destruct (match_at (relevant_frame s)) as [[whole group1]|] eqn:Hmatch.
  - left. apply match_at_Some in Hmatch as (k & Hk & Hleft & Hg & _).
    exists k. by repeat split.
  - right. split; [by apply match_at_None | reflexivity].
Qed.

Lemma frame_and_function_witness :
  fails_with (T:=Z) (rejects an_error) w0 an_error (at_call w0)
  /\ trace an_error a_trace
  /\ context_get (Some a_context) (js "location") = None
  /\ context_get (Some a_context) (js "function") = None
  /\ exists err meta frame name,
       tryState (rejects an_error) 7 (Some a_context) w0
       = (Fulfilled (7, Some err, Some meta), tick (at_call w0))
       /\ join 10 (split 10 a_trace) = a_trace
       /\ err !! js "location" = Some (VString frame)
       /\ ((exists line, split 10 a_trace !! 1%nat = Some line /\ ~ blank line
                         /\ frame = trim line)
           \/ ((split 10 a_trace !! 1%nat = None
                \/ exists line, split 10 a_trace !! 1%nat = Some line /\ blank line)
               /\ frame = location_not_found))
       /\ err !! js "function" = Some (VString name)
       /\ ((exists k, marker_at k frame
                      /\ (forall j, (j < k)%nat -> ~ marker_at j frame)
                      /\ name = non_space_run (drop (k + 3) frame))
           \/ ((forall k, ~ marker_at k frame) /\ name = js "unknown")).
Proof.
  assert (Hfail : fails_with (T:=Z) (rejects an_error) w0 an_error (at_call w0))
    by reflexivity.
  assert (Htrace : trace an_error a_trace) by (split; reflexivity).
  assert (Hloc : context_get (Some a_context) (js "location") = None) by reflexivity.
  assert (Hfun : context_get (Some a_context) (js "function") = None) by reflexivity.
  do 4 (split; [assumption|]).
  exact (frame_and_function Z (rejects an_error) 7 (Some a_context) w0 (at_call w0)
           an_error a_trace Hfail Htrace Hloc Hfun).
Defined.

(** *** C6: the context is merged last *)

(** C6.  Whenever the producer fails and [tryState] returns an error object,
    every key/value pair of the context is in it unchanged; the four fixed
    fields are there too; a fixed field whose name is not a key of the
    context holds its diagnostic value, and one whose name is a key of the
    context holds the value of the context instead. *)
Theorem context_merge :
  forall (T : Type) (fn : Producer T) (initialValue v : T)
         (additionalContext : option JsObject) (w w1 w2 : World)
         (error : JsValue) (err : JsObject) (meta : option Metadata),
    fails_with fn w error w1 ->
    tryState fn initialValue additionalContext w
    = (Fulfilled (v, Some err, meta), w2) ->
    (forall key x, context_get additionalContext key = Some x -> err !! key = Some x)
    /\ (forall key, key ∈ fixed_keys -> is_Some (err !! key))
    /\ (forall key x, key ∈ fixed_keys ->
                      context_get additionalContext key = Some x ->
                      err !! key = Some x)
    /\ (context_get additionalContext (js "message") = None ->
        err !! js "message" = Some (own error (js "message")))
    /\ (context_get additionalContext (js "stack") = None ->
        err !! js "stack" = Some (js_or (own error (js "stack")) (VString [])))
    /\ (context_get additionalContext (js "function") = None ->
        exists s, trace error s /\
                  err !! js "function" = Some (VString (function_name (relevant_frame s))))
    /\ (context_get additionalContext (js "location") = None ->
        exists s, trace error s /\
                  err !! js "location" = Some (VString (relevant_frame s))).
Proof.
  intros T fn initialValue v additionalContext w w1 w2 error err meta Hfail Hrun.
  destruct (tryState_error_inv _ _ _ _ _ _ _ _ Hrun) as (error' & w1' & s & Hfail' & Htrace).
  unfold fails_with in Hfail. rewrite Hfail in Hfail'. injection Hfail' as <- <-.
  rewrite (tryState_caught _ _ _ _ _ _ _ Hfail Htrace) in Hrun.
  injection Hrun as _ <- _ _.
  assert (Hctx : forall key x, context_get additionalContext key = Some x ->
                               spread additionalContext (fixed_fields error s) !! key = Some x)
    by (intros; by apply spread_lookup_context).
  split; [exact Hctx|].
  split.
  { intros key Hkey.
    destruct (context_get additionalContext key) as [x|] eqn:Hget.
    - rewrite (Hctx _ _ Hget). eauto.
    - rewrite spread_lookup_fields by exact Hget. by apply fixed_fields_keys. }
  split; [intros key x _; apply Hctx|].
  destruct Htrace as [Hnull Hstack].
  repeat split; intros Hfree; rewrite ?spread_lookup_fields by exact Hfree.
  - apply fixed_fields_message.
  - apply fixed_fields_stack.
  - exists s. split; [by split | apply fixed_fields_function].
  - exists s. split; [by split | apply fixed_fields_location].
Qed.

Lemma context_merge_witness :
  fails_with (T:=Z) (rejects an_error) w0 an_error (at_call w0)
  /\ exists err,
       tryState (rejects an_error) 7 (Some a_context) w0
       = (Fulfilled (7, Some err, Some (metadata_of w0 (at_call w0))), tick (at_call w0))
       /\ err !! js "taskId" = Some (VNumber 42)
       /\ is_Some (err !! js "message").
Proof.
  assert (Hfail : fails_with (T:=Z) (rejects an_error) w0 an_error (at_call w0))
    by reflexivity.
  split; [assumption|].
  eexists. split; [reflexivity|].
  destruct (context_merge Z (rejects an_error) 7 7 (Some a_context) w0 (at_call w0)
              (tick (at_call w0)) an_error _ _ Hfail eq_refl) as (Hctx & Hfixed & _).
  split.
  - apply Hctx. reflexivity.
  - apply Hfixed. unfold fixed_keys. apply list_elem_of_here.
Defined.

(** *** C7: the context plays no part in a success *)

(** C7.  When the producer resolves, two calls that differ only in the
    context argument, supplied or absent, end in the same way: the same tuple
    and the same world. *)
Theorem context_ignored_on_success :
  forall (T : Type) (fn : Producer T) (initialValue : T)
         (context context' : option JsObject) (w w1 : World) (v : T),
    resolves_with fn w v w1 ->
    tryState fn initialValue context w = tryState fn initialValue context' w.
Proof.
  intros T fn initialValue context context' w w1 v Hres.
  by rewrite !(tryState_fulfilled _ _ _ _ _ _ Hres).
Qed.

Lemma context_ignored_on_success_witness :
  resolves_with (resolves 3) w0 3 (at_call w0)
  /\ tryState (resolves 3) 7 (Some a_context) w0 = tryState (resolves 3) 7 None w0.
Proof.
  assert (Hres : resolves_with (resolves 3) w0 3 (at_call w0)) by reflexivity.
  split; [assumption|].
  exact (context_ignored_on_success Z (resolves 3) 7 (Some a_context) None w0
           (at_call w0) 3 Hres).
Defined.

(** *** C8: the location is trimmed, and a blank line counts as missing *)

(** C8.  When the producer fails with a value that carries the trace text
    [s] and the context has no key [location]: if the second line of [s] is
    not blank, [err.location] is that line without the white space in front
    and at the end; if there is no second line, or it is empty or made of
    white space only, [err.location] is the sentinel. *)
Theorem location_is_trimmed_second_line :
  forall (T : Type) (fn : Producer T) (initialValue : T)
         (additionalContext : option JsObject)
         (w w1 : World) (error : JsValue) (s : JsString),
    fails_with fn w error w1 ->
    trace error s ->
    context_get additionalContext (js "location") = None ->
    exists err meta,
      tryState fn initialValue additionalContext w
      = (Fulfilled (initialValue, Some err, Some meta), tick w1)
      /\ (forall line, split 10 s !! 1%nat = Some line -> ~ blank line ->
            err !! js "location" = Some (VString (trim line))
            /\ exists pre post, line = pre ++ trim line ++ post
                                /\ blank pre /\ blank post /\ trimmed (trim line))
      /\ (split 10 s !! 1%nat = None ->
            err !! js "location" = Some (VString location_not_found))
      /\ (forall line, split 10 s !! 1%nat = Some line -> blank line ->
            err !! js "location" = Some (VString location_not_found)).
Proof.
  intros T fn initialValue additionalContext w w1 error s Hfail Htrace Hloc.
  eexists _, _. split; [by apply tryState_caught|].
  rewrite spread_lookup_fields by exact Hloc. rewrite fixed_fields_location.
  unfold relevant_frame. split; [|split].
  - intros line Hline Hink. split; [|apply trim_spec].
    rewrite Hline. simpl. destruct (trim line) as [|c t] eqn:Htrim; [|reflexivity].
    apply trim_nil_iff in Htrim. contradiction.
  - intros ->. reflexivity.
  - intros line -> Hblank. simpl. apply trim_nil_iff in Hblank. by rewrite Hblank.
Qed.

Lemma location_is_trimmed_second_line_witness :
  fails_with (T:=Z) (throws an_error) w0 an_error (at_call w0)
  /\ trace an_error a_trace
  /\ context_get None (js "location") = None
  /\ exists err meta,
       tryState (throws an_error) 7 None w0
       = (Fulfilled (7, Some err, Some meta), tick (at_call w0))
       /\ err !! js "location" = Some (VString (js "at performTask (/app/task.js:4:9)")).
Proof.
  assert (Hfail : fails_with (T:=Z) (throws an_error) w0 an_error (at_call w0))
    by reflexivity.
  assert (Htrace : trace an_error a_trace) by (split; reflexivity).
  assert (Hloc : context_get None (js "location") = None) by reflexivity.
  do 3 (split; [assumption|]).
  destruct (location_is_trimmed_second_line Z (throws an_error) 7 None w0 (at_call w0)
              an_error a_trace Hfail Htrace Hloc) as (err & meta & Hrun & Hline & _).
  exists err, meta. split; [exact Hrun|].
  destruct (Hline (js "    at performTask (/app/task.js:4:9)") eq_refl) as [Hlocation _].
  - intros Hblank%trim_nil_iff. vm_compute in Hblank. discriminate Hblank.
  - exact Hlocation.
Defined.

(** *** C9: the function name has no white space *)



(** *** C10: the stack field *)

(** C10, counterexample.  A stack that is a String object is truthy and
    has the [split] method, so line 78 passes and line 85 stores the object:
    [err.stack] is then not a string. *)
Lemma stack_field_is_always_a_string_fails : ~ stack_field_is_always_a_string.
Proof.
  intros claim.
  destruct (claim Z (rejects a_string_object_error) 7 7 w0 (at_call w0)
                  (tick (at_call w0)) a_string_object_error _ _ eq_refl eq_refl)
    as (s & Hstack).
  vm_compute in Hstack. discriminate.
Qed.

(** C10, amended.  Whenever the producer fails, [tryState] returns an error
    object and the context has no key [stack], [err.stack] is present and
    holds the value of [error.stack || '']: the stack of the caught value
    when that is a string, the empty string when the caught value has no
    stack (absent or falsy), and otherwise the truthy stack as it was
    caught. *)
Theorem stack_is_kept_as_caught :
  forall (T : Type) (fn : Producer T) (initialValue v : T)
         (additionalContext : option JsObject) (w w1 w2 : World)
         (error : JsValue) (err : JsObject) (meta : option Metadata),
    fails_with fn w error w1 ->
    tryState fn initialValue additionalContext w
    = (Fulfilled (v, Some err, meta), w2) ->
    context_get additionalContext (js "stack") = None ->
    err !! js "stack" = Some (js_or (own error (js "stack")) (VString []))
    /\ (forall text, own error (js "stack") = VString text ->
                     err !! js "stack" = Some (VString text))
    /\ (truthy (own error (js "stack")) = false ->
        err !! js "stack" = Some (VString [])).
Proof.
  intros T fn initialValue v additionalContext w w1 w2 error err meta Hfail Hrun Hfree.
  destruct (tryState_error_inv _ _ _ _ _ _ _ _ Hrun) as (error' & w1' & s & Hfail' & Htrace).
  unfold fails_with in Hfail. rewrite Hfail in Hfail'. injection Hfail' as <- <-.
  rewrite (tryState_caught _ _ _ _ _ _ _ Hfail Htrace) in Hrun.
  injection Hrun as _ <- _ _.
  rewrite spread_lookup_fields by exact Hfree. rewrite fixed_fields_stack.
  split; [reflexivity|]. split.
  - intros text ->. unfold js_or. by destruct text.
  - intros Hfalsy. unfold js_or. by rewrite Hfalsy.
Qed.

Lemma stack_is_kept_as_caught_witness :
  fails_with (T:=Z) (rejects an_error) w0 an_error (at_call w0)
  /\ context_get (Some a_context) (js "stack") = None
  /\ own an_error (js "stack") = VString a_trace
  /\ exists err meta,
       tryState (rejects an_error) 7 (Some a_context) w0
       = (Fulfilled (7, Some err, meta), tick (at_call w0))
       /\ err !! js "stack" = Some (VString a_trace).
Proof.
  assert (Hfail : fails_with (T:=Z) (rejects an_error) w0 an_error (at_call w0))
    by reflexivity.
  assert (Hfree : context_get (Some a_context) (js "stack") = None) by reflexivity.
  assert (Hown : own an_error (js "stack") = VString a_trace) by reflexivity.
  do 3 (split; [assumption|]).
  eexists _, _. split; [reflexivity|].
  destruct (stack_is_kept_as_caught Z (rejects an_error) 7 7 (Some a_context) w0
              (at_call w0) (tick (at_call w0)) an_error _ _ Hfail eq_refl Hfree)
    as (_ & Htext & _).
  exact (Htext a_trace Hown).
Defined.

(** ** Further properties of tryState *)

Lemma trace_or_not error : (exists s, trace error s) \/ (forall s, ~ trace error s).
Proof.
  unfold trace. destruct (nullish error).
  - right. intros s [? _]. discriminate.
  - destruct (text_of (js_or (own error (js "stack")) (VString []))) as [s|].
    + left. by exists s.
    + right. intros s' [_ ?]. discriminate.
Qed.

(** The four ways a call can end. *)
Lemma tryState_cases {T} (fn : Producer T) initialValue additionalContext w :
  (exists v w1, resolves_with fn w v w1 /\
     tryState fn initialValue additionalContext w
     = (Fulfilled (v, None, Some (metadata_of w w1)), tick w1))
  \/ (exists error w1 s, fails_with fn w error w1 /\ trace error s /\
        tryState fn initialValue additionalContext w
        = (Fulfilled (initialValue,
                      Some (spread additionalContext (fixed_fields error s)),
                      Some (metadata_of w w1)), tick w1))
  \/ (exists error w1, fails_with fn w error w1 /\ (forall s, ~ trace error s) /\
        tryState fn initialValue additionalContext w = (Rejected TypeError, tick w1))
  \/ (exists w1, never_settles fn w w1 /\
        tryState fn initialValue additionalContext w = (Pending, w1)).
Proof.
  destruct (await_call fn (at_call w)) as [[v|error|] w1] eqn:Hawait.
  - left. exists v, w1. split; [exact Hawait | by apply tryState_fulfilled].
  - right. destruct (trace_or_not error) as [[s Htrace]|Hno].
    + left. exists error, w1, s.
      split; [exact Hawait|]. split; [exact Htrace|]. by apply tryState_caught.
    + right. left. exists error, w1.
      split; [exact Hawait|]. split; [exact Hno|].
      by apply (tryState_uncaught _ _ _ _ error).
  - do 3 right. exists w1. split; [exact Hawait | by apply tryState_pending].
Qed.

(** X1.  In a tuple that [tryState] returns, the error slot is [null]
    exactly when the producer resolved, and the first element is then the
    producer's value; the error slot holds an object exactly when the
    producer failed, and the first element is then the fallback. *)
Theorem error_slot_tells_the_path :
  forall (T : Type) (fn : Producer T) (initialValue v : T)
         (additionalContext : option JsObject) (w w2 : World)
         (error_slot : option JsObject) (meta : option Metadata),
    tryState fn initialValue additionalContext w
    = (Fulfilled (v, error_slot, meta), w2) ->
    exists w1,
      (error_slot = None /\ resolves_with fn w v w1)
      \/ (is_Some error_slot /\ v = initialValue
          /\ exists error, fails_with fn w error w1).
Proof.
  intros T fn initialValue v additionalContext w w2 error_slot meta Hrun.
  destruct (tryState_cases fn initialValue additionalContext w)
    as [(v' & w1 & Hres & Heq)|[(e & w1 & s & Hfail & _ & Heq)
       |[(e & w1 & _ & _ & Heq)|(w1 & _ & Heq)]]];
    rewrite Heq in Hrun; try discriminate.
  - injection Hrun as <- <- _ _. exists w1. by left.
  - injection Hrun as <- <- _ _. exists w1. right.
    split; [eauto|]. split; [reflexivity|]. by exists e.
Qed.

Lemma error_slot_tells_the_path_witness :
  exists err,
    tryState (throws an_error) 7 None w0
    = (Fulfilled (7, Some err, Some (metadata_of w0 (at_call w0))), tick (at_call w0))
    /\ exists w1,
         (Some err = None /\ resolves_with (throws an_error) w0 7 w1)
         \/ (is_Some (Some err) /\ 7 = 7
             /\ exists error, fails_with (T:=Z) (throws an_error) w0 error w1).
Proof.
  eexists. split; [reflexivity|].
  exact (error_slot_tells_the_path Z (throws an_error) 7 7 None w0
           (tick (at_call w0)) _ _ eq_refl).
Defined.

(** X2.  [tryState] rejects only from inside the [catch] block: when it
    rejects, the producer had thrown or rejected and the clock reading of
    line 76 had been taken; a producer that resolves never makes [tryState]
    reject.  When the caught value is [null] or [undefined], the reason is
    the TypeError of line 77. *)
Theorem rejection_comes_from_the_catch_block :
  forall (T : Type) (fn : Producer T) (initialValue : T)
         (additionalContext : option JsObject) (w w2 : World) (reason : JsValue),
    tryState fn initialValue additionalContext w = (Rejected reason, w2) ->
    exists error w1,
      fails_with fn w error w1 /\ w2 = tick w1
      /\ (nullish error = true -> reason = TypeError).
Proof.
  intros T fn initialValue additionalContext w w2 reason Hrun.
  destruct (tryState_cases fn initialValue additionalContext w)
    as [(v' & w1 & _ & Heq)|[(e & w1 & s & _ & _ & Heq)
       |[(e & w1 & Hfail & Hno & Heq)|(w1 & _ & Heq)]]];
    rewrite Heq in Hrun; try discriminate.
  injection Hrun as <- <-. exists e, w1. by repeat split.
Qed.

Lemma rejection_comes_from_the_catch_block_witness :
  tryState (throws VNull) 7 (Some a_context) w0 = (Rejected TypeError, tick (at_call w0))
  /\ exists error w1,
       fails_with (T:=Z) (throws VNull) w0 error w1 /\ tick (at_call w0) = tick w1
       /\ (nullish error = true -> TypeError = TypeError).
Proof.
  assert (Hrun : tryState (throws VNull) 7 (Some a_context) w0
                 = (Rejected TypeError, tick (at_call w0))) by reflexivity.
  split; [assumption|].
  exact (rejection_comes_from_the_catch_block Z (throws VNull) 7 (Some a_context) w0
           (tick (at_call w0)) TypeError Hrun).
Defined.

(** X3.  [tryState] stays pending exactly when the promise of the producer
    never settles: there is no timeout. *)
Theorem pending_iff_producer_never_settles :
  forall (T : Type) (fn : Producer T) (initialValue : T)
         (additionalContext : option JsObject) (w : World),
    (exists w2, tryState fn initialValue additionalContext w = (Pending, w2))
    <-> exists w1, never_settles fn w w1.
Proof.
  intros T fn initialValue additionalContext w. split.
  - intros [w2 Hrun].
    destruct (tryState_cases fn initialValue additionalContext w)
      as [(v' & w1 & _ & Heq)|[(e & w1 & s & _ & _ & Heq)
         |[(e & w1 & _ & _ & Heq)|(w1 & Hpend & Heq)]]];
      rewrite Heq in Hrun; try discriminate.
    by exists w1.
  - intros [w1 Hpend]. exists w1. by apply tryState_pending.
Qed.



(** X5.  The timestamp is fixed before the producer is called: two calls
    entered in the same world return the same timestamp, whatever their
    producers do, however long they take, and whether they resolve or fail;
    and every returned tuple has its metadata. *)
Theorem timestamp_is_taken_on_entry :
  forall (T T' : Type) (fn : Producer T) (fn' : Producer T')
         (initialValue v : T) (initialValue' v' : T')
         (context context' : option JsObject) (w w2 w2' : World)
         (error_slot error_slot' : option JsObject) (meta meta' : option Metadata),
    tryState fn initialValue context w = (Fulfilled (v, error_slot, meta), w2) ->
    tryState fn' initialValue' context' w = (Fulfilled (v', error_slot', meta'), w2') ->
    exists m m', meta = Some m /\ meta' = Some m' /\ timestamp m = timestamp m'.
Proof.
  intros T T' fn fn' initialValue v initialValue' v' context context' w w2 w2'
    error_slot error_slot' meta meta' Hrun Hrun'.
  destruct (tryState_cases fn initialValue context w)
    as [(x & w1 & _ & Heq)|[(e & w1 & s & _ & _ & Heq)
       |[(e & w1 & _ & _ & Heq)|(w1 & _ & Heq)]]];
    rewrite Heq in Hrun; try discriminate;
    injection Hrun as _ _ <- _;
    (destruct (tryState_cases fn' initialValue' context' w)
      as [(x' & w1' & _ & Heq')|[(e' & w1' & s' & _ & _ & Heq')
         |[(e' & w1' & _ & _ & Heq')|(w1' & _ & Heq')]]];
     rewrite Heq' in Hrun'; try discriminate;
     injection Hrun' as _ _ <- _);
    by eexists _, _.
Qed.

Lemma timestamp_is_taken_on_entry_witness :
  exists err m m',
    tryState (resolves 3) 7 None w0 = (Fulfilled (3, None, Some m), tick (at_call w0))
    /\ tryState (fun w => (Throws an_error, tick (tick (tick w)))) true
         (Some a_context) w0
       = (Fulfilled (true, Some err, Some m'), tick (tick (tick (tick (at_call w0)))))
    /\ timestamp m = timestamp m'
    /\ executionTimeMs m <> executionTimeMs m'.
Proof.
  destruct (timestamp_is_taken_on_entry Z bool (resolves 3)
              (fun w => (Throws an_error, tick (tick (tick w)))) 7 3 true true
              None (Some a_context) w0 _ _ _ _ _ _ eq_refl eq_refl)
    as (m & m' & Hm & Hm' & Hstamp).
  injection Hm as <-. injection Hm' as <-.
  eexists _, _, _. split; [reflexivity|]. split; [reflexivity|].
  split; [exact Hstamp|]. vm_compute. discriminate.
Defined.

(** X6.  A producer that throws before it returns a promise and a producer
    that returns a rejected promise are treated alike: with the same thrown
    value and the same effect on the world, the two calls end identically. *)
Theorem throw_and_rejection_are_alike :
  forall (T : Type) (fn fn' : Producer T) (initialValue : T)
         (additionalContext : option JsObject) (w w1 : World) (error : JsValue),
    fn (at_call w) = (Throws error, w1) ->
    fn' (at_call w) = (Returns (Rejected error), w1) ->
    tryState fn initialValue additionalContext w
    = tryState fn' initialValue additionalContext w.
Proof.
  intros T fn fn' initialValue additionalContext w w1 error Hthrow Hreject.
  assert (Hfail : fails_with fn w error w1)
    by (apply fails_with_iff; by right).
  assert (Hfail' : fails_with fn' w error w1)
    by (apply fails_with_iff; by left).
  destruct (trace_or_not error) as [[s Htrace]|Hno].
  - by rewrite (tryState_caught _ _ _ _ _ _ _ Hfail Htrace),
      (tryState_caught _ _ _ _ _ _ _ Hfail' Htrace).
  - by rewrite (tryState_uncaught _ _ _ _ _ _ Hfail Hno),
      (tryState_uncaught _ _ _ _ _ _ Hfail' Hno).
Qed.

Lemma throw_and_rejection_are_alike_witness :
  throws (T:=Z) an_error (at_call w0) = (Throws an_error, at_call w0)
  /\ rejects (T:=Z) an_error (at_call w0) = (Returns (Rejected an_error), at_call w0)
  /\ tryState (throws an_error) 7 (Some a_context) w0
     = tryState (rejects an_error) 7 (Some a_context) w0.
Proof.
  assert (Hthrow : throws (T:=Z) an_error (at_call w0) = (Throws an_error, at_call w0))
    by reflexivity.
  assert (Hreject : rejects (T:=Z) an_error (at_call w0)
                    = (Returns (Rejected an_error), at_call w0)) by reflexivity.
  do 2 (split; [assumption|]).
  exact (throw_and_rejection_are_alike Z (throws an_error) (rejects an_error) 7
           (Some a_context) w0 (at_call w0) an_error Hthrow Hreject).
Defined.





(** X8.  When the trace text of the caught value has a single line (no line
    feed), or its second line is blank, and the context has no key
    [location] or [function], [err.location] is the sentinel of line 79 and
    [err.function] is ["unknown"]: the first line, where the message
    stands, is never looked at. *)
Theorem one_line_trace_gives_sentinels :
  forall (T : Type) (fn : Producer T) (initialValue : T)
         (additionalContext : option JsObject)
         (w w1 : World) (error : JsValue) (s : JsString),
    fails_with fn w error w1 ->
    trace error s ->
    (10%N ∉ s) \/ (exists line, split 10 s !! 1%nat = Some line /\ blank line) ->
    context_get additionalContext (js "location") = None ->
    context_get additionalContext (js "function") = None ->
    exists err meta,
      tryState fn initialValue additionalContext w
      = (Fulfilled (initialValue, Some err, Some meta), tick w1)
      /\ err !! js "location" = Some (VString location_not_found)
      /\ err !! js "function" = Some (VString (js "unknown")).
Proof.
  intros T fn initialValue additionalContext w w1 error s Hfail Htrace Hline Hloc Hfun.
  eexists _, _. split; [by apply tryState_caught|].
  rewrite !spread_lookup_fields by assumption.
  rewrite fixed_fields_location, fixed_fields_function.
  assert (Hframe : relevant_frame s = location_not_found).
  { unfold relevant_frame. destruct Hline as [Hno|(line & -> & Hblank)].
    - apply second_line_None in Hno. by rewrite Hno.
    - simpl. apply trim_nil_iff in Hblank. by rewrite Hblank. }
  rewrite Hframe. split; reflexivity.
Qed.

Lemma one_line_trace_gives_sentinels_witness :
  fails_with (T:=Z) (rejects a_one_line_error) w0 a_one_line_error (at_call w0)
  /\ trace a_one_line_error a_one_line_trace
  /\ (10%N ∉ a_one_line_trace)
  /\ context_get None (js "location") = None
  /\ context_get None (js "function") = None
  /\ exists err meta,
       tryState (rejects a_one_line_error) 7 None w0
       = (Fulfilled (7, Some err, Some meta), tick (at_call w0))
       /\ err !! js "location" = Some (VString location_not_found)
       /\ err !! js "function" = Some (VString (js "unknown")).
Proof.
  assert (Hfail : fails_with (T:=Z) (rejects a_one_line_error) w0 a_one_line_error
                    (at_call w0)) by reflexivity.
  assert (Htrace : trace a_one_line_error a_one_line_trace) by (split; reflexivity).
  assert (Hone : 10%N ∉ a_one_line_trace).
  { intros Hin. apply list_elem_of_In in Hin. vm_compute in Hin.
    repeat (destruct Hin as [Hin|Hin]; [discriminate Hin|]). exact Hin. }
  assert (Hloc : context_get None (js "location") = None) by reflexivity.
  assert (Hfun : context_get None (js "function") = None) by reflexivity.
  do 5 (split; [assumption|]).
  exact (one_line_trace_gives_sentinels Z (rejects a_one_line_error) 7 None w0
           (at_call w0) a_one_line_error a_one_line_trace
           Hfail Htrace (or_introl Hone) Hloc Hfun).
Defined.



Lemma fixed_fields_is_Some error s key :
  is_Some (fixed_fields error s !! key) <-> key ∈ fixed_keys.
Proof.
  split; [|apply fixed_fields_keys].
  unfold fixed_fields, fixed_keys.
  rewrite !lookup_insert_is_Some', !elem_of_cons, elem_of_nil.
  intros [<-|[<-|[<-|Hmessage]]]; auto.
  destruct Hmessage as [x Hx]. apply lookup_singleton_Some in Hx as [<- _]. auto.
Qed.

(** X10.  The error object has the four fixed fields and the keys of the
    context, and nothing else: no other property of the caught value (its
    [name], [code], [cause] ...) is copied. *)
Theorem error_object_keys :
  forall (T : Type) (fn : Producer T) (initialValue v : T)
         (additionalContext : option JsObject) (w w2 : World)
         (err : JsObject) (meta : option Metadata),
    tryState fn initialValue additionalContext w
    = (Fulfilled (v, Some err, meta), w2) ->
    forall key,
      is_Some (err !! key)
      <-> key ∈ fixed_keys \/ is_Some (context_get additionalContext key).
Proof.
  intros T fn initialValue v additionalContext w w2 err meta Hrun key.
  destruct (tryState_error_inv _ _ _ _ _ _ _ _ Hrun) as (error & w1 & s & Hfail & Htrace).
  rewrite (tryState_caught _ _ _ _ _ _ _ Hfail Htrace) in Hrun.
  injection Hrun as _ <- _ _.
  rewrite <- (fixed_fields_is_Some error s).
  destruct additionalContext as [context|]; simpl.
  - rewrite lookup_union_is_Some. tauto.
  - split; [auto|]. intros [?|[? [=]]]. assumption.
Qed.

Lemma error_object_keys_witness :
  exists err meta,
    tryState (rejects (VObject (<[js "code" := VNumber 500]>
                                  {[ js "message" := VString (js "no route") ]})))
             7 (Some a_context) w0
    = (Fulfilled (7, Some err, meta), tick (at_call w0))
    /\ err !! js "code" = None
    /\ is_Some (err !! js "taskId")
    /\ is_Some (err !! js "stack").
Proof.
  eexists _, _. split; [reflexivity|].
  pose proof (error_object_keys Z
                (rejects (VObject (<[js "code" := VNumber 500]>
                                     {[ js "message" := VString (js "no route") ]})))
                7 7 (Some a_context) w0 (tick (at_call w0)) _ _ eq_refl) as Hkeys.
  split; [reflexivity|]. split.
  - apply Hkeys. right. by eexists.
  - apply Hkeys. left. unfold fixed_keys. rewrite !elem_of_cons. auto.
Defined.

(** X11.  A thrown boolean, number or string loses its content: without
    context keys in the way, [err.message] is [undefined], [err.stack] is the
    empty string, [err.function] is ["unknown"] and [err.location] is the
    sentinel, whatever the thrown primitive was. *)
Theorem thrown_primitive_is_not_reported :
  forall (T : Type) (fn : Producer T) (initialValue : T)
         (additionalContext : option JsObject) (w w1 : World) (error : JsValue),
    fails_with fn w error w1 ->
    is_primitive error = true ->
    exists err meta,
      tryState fn initialValue additionalContext w
      = (Fulfilled (initialValue, Some err, Some meta), tick w1)
      /\ (context_get additionalContext (js "message") = None ->
          err !! js "message" = Some VUndefined)
      /\ (context_get additionalContext (js "stack") = None ->
          err !! js "stack" = Some (VString []))
      /\ (context_get additionalContext (js "function") = None ->
          err !! js "function" = Some (VString (js "unknown")))
      /\ (context_get additionalContext (js "location") = None ->
          err !! js "location" = Some (VString location_not_found)).
Proof.
  intros T fn initialValue additionalContext w w1 error Hfail Hprim.
  assert (Htrace : trace error []) by (by destruct error).
  assert (Hmessage : own error (js "message") = VUndefined) by (by destruct error).
  eexists _, _. split; [by apply tryState_caught|].
  repeat split; intros Hfree; rewrite spread_lookup_fields by exact Hfree.
  - by rewrite fixed_fields_message, Hmessage.
  - rewrite fixed_fields_stack. by destruct error.
  - apply fixed_fields_function.
  - apply fixed_fields_location.
Qed.

Lemma thrown_primitive_is_not_reported_witness :
  fails_with (T:=Z) (throws (VString (js "boom"))) w0 (VString (js "boom")) (at_call w0)
  /\ is_primitive (VString (js "boom")) = true
  /\ exists err meta,
       tryState (throws (VString (js "boom"))) 7 None w0
       = (Fulfilled (7, Some err, Some meta), tick (at_call w0))
       /\ err !! js "message" = Some VUndefined
       /\ err !! js "stack" = Some (VString []).
Proof.
  assert (Hfail : fails_with (T:=Z) (throws (VString (js "boom"))) w0
                    (VString (js "boom")) (at_call w0)) by reflexivity.
  assert (Hprim : is_primitive (VString (js "boom")) = true) by reflexivity.
  do 2 (split; [assumption|]).
  destruct (thrown_primitive_is_not_reported Z (throws (VString (js "boom"))) 7 None
              w0 (at_call w0) (VString (js "boom")) Hfail Hprim)
    as (err & meta & Hrun & Hmessage & Hstack & _).
  exists err, meta. split; [exact Hrun|].
  split; [exact (Hmessage eq_refl) | exact (Hstack eq_refl)].
Defined.

(** X12.  Leaving the context out and passing an empty object are the same
    call. *)
Theorem absent_context_is_empty_context :
  forall (T : Type) (fn : Producer T) (initialValue : T) (w : World),
    tryState fn initialValue None w = tryState fn initialValue (Some ∅) w.
Proof.
  intros T fn initialValue w.
  destruct (tryState_cases fn initialValue None w)
    as [(v & w1 & Hres & ->)|[(e & w1 & s & Hfail & Htrace & ->)
       |[(e & w1 & Hfail & Hno & ->)|(w1 & Hpend & ->)]]].
  - by rewrite (tryState_fulfilled _ _ _ _ _ _ Hres).
  - rewrite (tryState_caught _ _ _ _ _ _ _ Hfail Htrace). simpl.
    by rewrite (left_id_L ∅ (∪)).
  - by rewrite (tryState_uncaught _ _ _ _ _ _ Hfail Hno).
  - by rewrite (tryState_pending _ _ _ _ _ Hpend).
Qed.

Lemma relevant_frame_second_line s s' :
  split 10 s !! 1%nat = split 10 s' !! 1%nat -> relevant_frame s = relevant_frame s'.
Proof. unfold relevant_frame. by intros ->. Qed.

(** X13.  Only the second line of the trace text is looked at: two failures
    whose trace texts have the same second line (or both none) get the same
    [err.location] and the same [err.function], whatever their first lines
    (the messages) and their deeper frames are. *)
Theorem only_the_second_line_matters :
  forall (T T' : Type) (fn : Producer T) (fn' : Producer T')
         (initialValue : T) (initialValue' : T')
         (context context' : option JsObject)
         (w w1 w' w1' : World) (error error' : JsValue) (s s' : JsString),
    fails_with fn w error w1 -> trace error s ->
    fails_with fn' w' error' w1' -> trace error' s' ->
    split 10 s !! 1%nat = split 10 s' !! 1%nat ->
    context_get context (js "location") = None ->
    context_get context (js "function") = None ->
    context_get context' (js "location") = None ->
    context_get context' (js "function") = None ->
    exists err meta err' meta',
      tryState fn initialValue context w
      = (Fulfilled (initialValue, Some err, Some meta), tick w1)
      /\ tryState fn' initialValue' context' w'
         = (Fulfilled (initialValue', Some err', Some meta'), tick w1')
      /\ err !! js "location" = err' !! js "location"
      /\ err !! js "function" = err' !! js "function".
Proof.
  intros T T' fn fn' initialValue initialValue' context context' w w1 w' w1'
    error error' s s' Hfail Htrace Hfail' Htrace' Hline Hloc Hfun Hloc' Hfun'.
  eexists _, _, _, _.
  split; [by apply tryState_caught|]. split; [by apply tryState_caught|].
  rewrite !spread_lookup_fields by assumption.
  rewrite !fixed_fields_location, !fixed_fields_function.
  by rewrite (relevant_frame_second_line s s' Hline).
Qed.

Lemma only_the_second_line_matters_witness :
  fails_with (T:=Z) (rejects an_error) w0 an_error (at_call w0)
  /\ trace an_error a_trace
  /\ fails_with (T:=bool) (throws another_error) w0 another_error (at_call w0)
  /\ trace another_error another_trace
  /\ split 10 a_trace !! 1%nat = split 10 another_trace !! 1%nat
  /\ exists err meta err' meta',
       tryState (rejects an_error) 7 None w0
       = (Fulfilled (7, Some err, Some meta), tick (at_call w0))
       /\ tryState (throws another_error) true (Some a_context) w0
          = (Fulfilled (true, Some err', Some meta'), tick (at_call w0))
       /\ err !! js "location" = err' !! js "location"
       /\ err !! js "function" = err' !! js "function".
Proof.
  assert (Hfail : fails_with (T:=Z) (rejects an_error) w0 an_error (at_call w0))
    by reflexivity.
  assert (Htrace : trace an_error a_trace) by (split; reflexivity).
  assert (Hfail' : fails_with (T:=bool) (throws another_error) w0 another_error
                     (at_call w0)) by reflexivity.
  assert (Htrace' : trace another_error another_trace) by (split; reflexivity).
  assert (Hline : split 10 a_trace !! 1%nat = split 10 another_trace !! 1%nat)
    by reflexivity.
  do 5 (split; [assumption|]).
  exact (only_the_second_line_matters Z bool (rejects an_error) (throws another_error)
           7 true None (Some a_context) w0 (at_call w0) w0 (at_call w0)
           an_error another_error a_trace another_trace
           Hfail Htrace Hfail' Htrace' Hline eq_refl eq_refl eq_refl eq_refl).
Defined.
